(** * libbitcoin: message::inventory_vector

    A shallow embedding of [src/message/inventory_vector.cpp] and the
    properties of its wire codec: the type-id <-> wire-code tables, the
    36-byte serialisation, the behaviour of [from_data] on short input, the
    validity rule and the classification helpers.

    Conventions.
    - [uint32_t] and [uint64_t] values are [N]; every value built here is
      shown to stay below the width of its C++ type.
    - [uint8_t] is [Byte.byte]; [data_chunk] (a [std::vector<uint8_t>]) is
      [list byte].
    - [hash_digest] is a [std::array<uint8_t, 32>]; it is a [list byte]
      together with the invariant [hash_wf] (exactly [hash_size] bytes).
    - A member function that mutates [*this] takes the object and returns
      the new one; a function that reads from a [reader&] or writes to a
      [writer&] also returns the new state of the source or sink. *)

From Stdlib Require Import Arith NArith List Bool Lia.
From Stdlib Require Import Strings.Byte.
Import ListNotations.

Local Open Scope N_scope.

(** ** Bytes and little-endian integers *)

Definition data_chunk := list byte.

(** [static_cast<uint8_t>]: keep the low eight bits. *)
Definition to_byte (v : N) : byte :=
  match Byte.of_N (v mod 256) with
  | Some b => b
  | None => x00
  end.

(** The [n] low bytes of [v], least significant first. *)
Fixpoint to_little_endian (n : nat) (v : N) : data_chunk :=
  match n with
  | O => []
  | S k => to_byte v :: to_little_endian k (v / 256)
  end.

(** The unsigned integer whose little-endian bytes are [bs]. *)
Fixpoint from_little_endian (bs : data_chunk) : N :=
  match bs with
  | [] => 0
  | b :: rest => Byte.to_N b + 256 * from_little_endian rest
  end.

Definition uint32_max : N := 2 ^ 32.

(** ** hash_digest *)

(** Modelled from the spec: [hash_size], [hash_digest] and [null_hash] are
    declared outside this translation unit; the hash is "a fixed 32-byte
    content digest" and the default one is the "all-zero 32-byte hash". *)
Definition hash_size : nat := 32.

Definition hash_digest := list byte.

Definition hash_wf (h : hash_digest) : Prop := length h = hash_size.

Definition null_hash : hash_digest := repeat x00 hash_size.

(** [std::array::fill]: every element is overwritten, the size stays. *)
Definition fill (v : byte) (h : hash_digest) : hash_digest :=
  map (fun _ => v) h.

(** [operator==] of [std::array]: element-wise comparison. *)
Fixpoint hash_eqb (a b : hash_digest) : bool :=
  match a, b with
  | [], [] => true
  | x :: a', y :: b' => Byte.eqb x y && hash_eqb a' b'
  | _, _ => false
  end.

(** ** reader and writer *)

(** Modelled from the spec: the abstract [reader] interface is declared
    outside this translation unit.  [from_data] uses three of its members:
    "read a 4-byte little-endian unsigned integer", "read exactly 32 raw
    bytes" and the conversion to [bool] that reports "the underlying byte
    source's exhaustion/error state". *)
Class reader (R : Type) : Type := {
  read_4_bytes_little_endian : R -> N * R;
  read_hash : R -> hash_digest * R;
  to_bool : R -> bool
}.

(** What the return type of [read_hash] promises: 32 bytes, whatever the
    state of the source. *)
Class reader_sized (R : Type) `{reader R} : Prop :=
  read_hash_wf : forall r : R, hash_wf (fst (read_hash r)).

(** Modelled from the spec: the abstract [writer] interface is declared
    outside this translation unit.  [to_data] uses two of its members:
    "write the 4-byte little-endian wire code" and "write the 32 raw hash
    bytes verbatim". *)
Class writer (W : Type) : Type := {
  write_4_bytes_little_endian : N -> W -> W;
  write_hash : hash_digest -> W -> W
}.

(** Modelled from the spec: [std::istream] as the bytes not yet consumed
    and the fail bit.  A stream that has failed stays failed and delivers
    nothing more. *)
Record istream : Type := mk_istream {
  pending : data_chunk;
  failbit : bool
}.

(** [std::istream::read] of [n] bytes.  When fewer than [n] bytes are left
    the stream is drained and fails; the bytes that could not be read are
    shown as zero here (nothing below depends on them, see
    [from_data_failure]). *)
Definition istream_read (n : nat) (s : istream) : data_chunk * istream :=
  if failbit s then (repeat x00 n, s)
  else if Nat.leb n (length (pending s))
       then (firstn n (pending s), mk_istream (skipn n (pending s)) false)
       else (firstn n (pending s ++ repeat x00 n), mk_istream [] true).

(** Modelled from the spec: [istream_reader], the [reader] over a
    [std::istream]. *)
Definition istream_reader_read_4_bytes_little_endian (s : istream)
  : N * istream :=
  let (bs, s') := istream_read 4 s in (from_little_endian bs, s').

Definition istream_reader_read_hash (s : istream) : hash_digest * istream :=
  istream_read hash_size s.

Definition istream_reader_to_bool (s : istream) : bool := negb (failbit s).

#[export] Instance istream_reader : reader istream := {
  read_4_bytes_little_endian := istream_reader_read_4_bytes_little_endian;
  read_hash := istream_reader_read_hash;
  to_bool := istream_reader_to_bool
}.

(** The source cannot supply [n] bytes: it has failed already, or fewer
    than [n] bytes are left in it. *)
Definition exhausted (n : nat) (s : istream) : Prop :=
  failbit s = true \/ (length (pending s) < n)%nat.

Definition exhaustedb (n : nat) (s : istream) : bool :=
  failbit s || Nat.ltb (length (pending s)) n.

(** Modelled from the spec: [data_source], the input stream over a byte
    buffer; it starts at the first byte with no error. *)
Definition data_source (data : data_chunk) : istream :=
  mk_istream data false.

(** Modelled from the spec: [std::ostream] as the bytes written so far,
    [ostream_writer] as the [writer] over it, and [data_sink], the output
    stream that appends to a byte buffer. *)
Definition ostream := data_chunk.

#[export] Instance ostream_writer : writer ostream := {
  write_4_bytes_little_endian v s := s ++ to_little_endian 4 v;
  write_hash h s := s ++ h
}.

Definition data_sink (data : data_chunk) : ostream := data.

Definition flush (s : ostream) : data_chunk := s.

(** ** inventory_vector *)

Module inventory_vector.

(** Modelled from the spec: the enumeration [type_id] is declared outside
    this translation unit; its members are the kinds "Error, Transaction,
    Block, FilteredBlock, CompactBlock, Unrecognized", the last one being
    [type_id::none] in the code. *)
Inductive type_id : Type :=
| error
| transaction
| block
| filtered_block
| compact_block
| none.

Definition type_id_eqb (a b : type_id) : bool :=
  match a, b with
  | error, error
  | transaction, transaction
  | block, block
  | filtered_block, filtered_block
  | compact_block, compact_block
  | none, none => true
  | _, _ => false
  end.

Record t : Type := Build {
  type_ : type_id;
  hash_ : hash_digest
}.

(** The class invariant carried by the type of [hash_]. *)
Definition wf (iv : t) : Prop := hash_wf (hash_ iv).

Definition to_number (inventory_type : type_id) : N :=
  match inventory_type with
  | compact_block => 4
  | block => 2
  | transaction => 1
  | error | none | _ => 0
  end.

Definition to_type (value : N) : type_id :=
  match value with
  | 0 => error
  | 1 => transaction
  | 2 => block
  | 4 => compact_block
  | _ => none
  end.

(** [inventory_vector(type_id type, const hash_digest& hash)] *)
Definition construct (type : type_id) (hash : hash_digest) : t :=
  Build type hash.

(** [inventory_vector()] *)
Definition construct_default : t := construct error null_hash.

Definition is_valid (self : t) : bool :=
  negb (type_id_eqb (type_ self) error)
  || negb (hash_eqb (hash_ self) null_hash).

Definition reset (self : t) : t :=
  let self := Build error (hash_ self) in
  Build (type_ self) (fill x00 (hash_ self)).

Definition type (self : t) : type_id := type_ self.

Definition set_type (value : type_id) (self : t) : t :=
  Build value (hash_ self).

Definition hash (self : t) : hash_digest := hash_ self.

Definition set_hash (value : hash_digest) (self : t) : t :=
  Build (type_ self) value.

(** [bool from_data(uint32_t version, reader& source)]: the result, the
    object afterwards and the source afterwards. *)
Definition from_data {R : Type} `{reader R}
    (version : N) (source : R) (self : t) : bool * t * R :=
  let self := reset self in
  let (raw_type, source) := read_4_bytes_little_endian source in
  let self := set_type (to_type raw_type) self in
  let (h, source) := read_hash source in
  let self := set_hash h self in
  let result := to_bool source in
  if negb result
  then (result, reset self, source)
  else (result, self, source).

(** [bool from_data(uint32_t version, std::istream& stream)] *)
Definition from_data_stream (version : N) (stream : istream) (self : t)
  : bool * t * istream :=
  let source := stream in
  from_data version source self.

(** [bool from_data(uint32_t version, const data_chunk& data)]: the stream
    is a local, so only the result and the object are left. *)
Definition from_data_chunk (version : N) (data : data_chunk) (self : t)
  : bool * t :=
  let istream := data_source data in
  fst (from_data_stream version istream self).

(** [factory_from_data(uint32_t version, const data_chunk& data)] *)
Definition factory_from_data (version : N) (data : data_chunk) : t :=
  let instance := construct_default in
  snd (from_data_chunk version data instance).

(** [factory_from_data(uint32_t version, std::istream& stream)] *)
Definition factory_from_data_stream (version : N) (stream : istream)
  : t * istream :=
  let instance := construct_default in
  let '(_, instance, stream) := from_data_stream version stream instance in
  (instance, stream).

(** [factory_from_data(uint32_t version, reader& source)] *)
Definition factory_from_data_reader {R : Type} `{reader R}
    (version : N) (source : R) : t * R :=
  let instance := construct_default in
  let '(_, instance, source) := from_data version source instance in
  (instance, source).

(** [void to_data(uint32_t version, writer& sink) const] *)
Definition to_data {W : Type} `{writer W}
    (version : N) (sink : W) (self : t) : W :=
  let raw_type := to_number (type_ self) in
  let sink := write_4_bytes_little_endian raw_type sink in
  write_hash (hash_ self) sink.

(** [void to_data(uint32_t version, std::ostream& stream) const] *)
Definition to_data_stream (version : N) (stream : ostream) (self : t)
  : ostream :=
  let sink := stream in
  to_data version sink self.

Definition satoshi_fixed_size (version : N) : N :=
  N.of_nat hash_size + 4.

Definition serialized_size (version : N) (self : t) : N :=
  satoshi_fixed_size version.

(** [data_chunk to_data(uint32_t version) const].  The
    [BITCOIN_ASSERT(data.size() == serialized_size(version))] before the
    return is the statement of [to_data_chunk_assertion] below. *)
Definition to_data_chunk (version : N) (self : t) : data_chunk :=
  let data := [] in
  let ostream := data_sink data in
  let ostream := to_data_stream version ostream self in
  flush ostream.

Definition is_block_type (self : t) : bool :=
  type_id_eqb (type_ self) block
  || type_id_eqb (type_ self) compact_block
  || type_id_eqb (type_ self) filtered_block.

Definition is_transaction_type (self : t) : bool :=
  type_id_eqb (type_ self) transaction.

(** [operator==] *)
Definition eqb (self other : t) : bool :=
  hash_eqb (hash_ self) (hash_ other)
  && type_id_eqb (type_ self) (type_ other).

(** [operator!=] *)
Definition neqb (self other : t) : bool := negb (eqb self other).

(** [inventory_vector(type_id type, hash_digest&& hash)]: the bytes of
    [hash] are moved into [hash_]. *)
Definition construct_move (type : type_id) (hash : hash_digest) : t :=
  Build type hash.

(** [inventory_vector(const inventory_vector& other)] *)
Definition construct_copy (other : t) : t :=
  construct (type_ other) (hash_ other).

(** [inventory_vector(inventory_vector&& other)] *)
Definition construct_moved (other : t) : t :=
  construct_move (type_ other) (hash_ other).

(** [void set_hash(hash_digest&& value)] *)
Definition set_hash_move (value : hash_digest) (self : t) : t :=
  Build (type_ self) value.

(** [inventory_vector& operator=(inventory_vector&& other)]: the object
    after the two assignments. *)
Definition assign_move (other : t) (self : t) : t :=
  let self := Build (type_ other) (hash_ self) in
  Build (type_ self) (hash_ other).

(** [void operator=(const inventory_vector& other)] *)
Definition assign (other : t) (self : t) : t :=
  let self := Build (type_ other) (hash_ self) in
  Build (type_ self) (hash_ other).

(** The size of the wire form: the tag and the hash. *)
Definition wire_size : nat := 4 + hash_size.

(** The kinds that have a wire code of their own. *)
Definition has_wire_code (k : type_id) : Prop :=
  In k [error; transaction; block; compact_block].

End inventory_vector.

Import inventory_vector.

(** * Properties *)

(** ** Equality tests decide equality *)

Lemma type_id_eqb_eq (a b : type_id) : type_id_eqb a b = true <-> a = b.
Proof. destruct a, b; simpl; split; congruence. Qed.

Lemma type_id_eqb_neq (a b : type_id) : type_id_eqb a b = false <-> a <> b.
Proof.
  rewrite <- type_id_eqb_eq.
  destruct (type_id_eqb a b); split; congruence.
Qed.

Lemma byte_eqb_eq (x y : byte) : Byte.eqb x y = true <-> x = y.
Proof. split; [apply Byte.byte_dec_bl | apply Byte.byte_dec_lb]. Qed.

Lemma hash_eqb_eq (a b : hash_digest) : hash_eqb a b = true <-> a = b.
Proof.
  revert b.
  induction a as [|x a IH]; intros [|y b]; simpl; try (split; congruence).
  rewrite andb_true_iff, byte_eqb_eq, IH.
  split.
  - intros [-> ->]. reflexivity.
  - intros E. injection E. auto.
Qed.

Lemma hash_eqb_neq (a b : hash_digest) : hash_eqb a b = false <-> a <> b.
Proof.
  rewrite <- hash_eqb_eq.
  destruct (hash_eqb a b); split; congruence.
Qed.

Lemma eqb_eq (a b : t) : eqb a b = true <-> a = b.
Proof.
  unfold eqb.
  rewrite andb_true_iff, hash_eqb_eq, type_id_eqb_eq.
  destruct a as [ta ha], b as [tb hb]; simpl.
  split.
  - intros [-> ->]. reflexivity.
  - intros E. injection E. auto.
Qed.

(** ** Little-endian integers *)

Lemma to_byte_to_N (v : N) : Byte.to_N (to_byte v) = v mod 256.
Proof.
  unfold to_byte.
  destruct (Byte.of_N (v mod 256)) as [b|] eqn:E.
  - apply Byte.to_of_N. exact E.
  - apply Byte.of_N_None_iff in E.
    pose proof (N.mod_upper_bound v 256). lia.
Qed.

Lemma to_little_endian_length (n : nat) (v : N) :
  length (to_little_endian n v) = n.
Proof.
  revert v. induction n as [|n IH]; intros v; simpl; [|rewrite IH]; reflexivity.
Qed.

Lemma from_to_little_endian (n : nat) :
  forall v, v < 256 ^ N.of_nat n ->
  from_little_endian (to_little_endian n v) = v.
Proof.
  induction n as [|n IH]; intros v Hv.
  - simpl in *. lia.
  - cbn [to_little_endian from_little_endian].
    rewrite to_byte_to_N, IH.
    + pose proof (N.div_mod v 256). lia.
    + apply N.Div0.div_lt_upper_bound.
      rewrite Nat2N.inj_succ, N.pow_succ_r' in Hv. exact Hv.
Qed.

Lemma from_little_endian_bound (bs : data_chunk) :
  from_little_endian bs < 256 ^ N.of_nat (length bs).
Proof.
  induction bs as [|b bs IH].
  - simpl. lia.
  - cbn [from_little_endian length].
    rewrite Nat2N.inj_succ, N.pow_succ_r'.
    pose proof (Byte.to_N_bounded b). lia.
Qed.

Lemma to_from_little_endian (bs : data_chunk) :
  to_little_endian (length bs) (from_little_endian bs) = bs.
Proof.
  induction bs as [|b bs IH]; [reflexivity|].
  cbn [length to_little_endian from_little_endian].
  pose proof (Byte.to_N_bounded b) as Hb.
  assert (Hm : (Byte.to_N b + 256 * from_little_endian bs) mod 256
               = Byte.to_N b).
  { rewrite N.mul_comm, N.Div0.mod_add. apply N.mod_small. lia. }
  assert (Hd : (Byte.to_N b + 256 * from_little_endian bs) / 256
               = from_little_endian bs).
  { rewrite N.mul_comm, N.div_add by lia.
    rewrite N.div_small by lia. reflexivity. }
  rewrite Hd, IH. f_equal.
  unfold to_byte. rewrite Hm, Byte.of_to_N. reflexivity.
Qed.

Lemma uint32_little_endian (v : N) :
  v < uint32_max -> from_little_endian (to_little_endian 4 v) = v.
Proof. intros Hv. apply from_to_little_endian. exact Hv. Qed.

(** ** The stream model *)

Lemma istream_read_length (n : nat) (s : istream) :
  length (fst (istream_read n s)) = n.
Proof.
  unfold istream_read.
  destruct (failbit s); simpl.
  - apply repeat_length.
  - destruct (Nat.leb_spec n (length (pending s))); simpl.
    + apply firstn_length_le; assumption.
    + apply firstn_length_le.
      rewrite length_app, repeat_length. lia.
Qed.

#[export] Instance istream_reader_sized : reader_sized istream.
Proof. intros s. apply (istream_read_length hash_size). Qed.

(** A stream that holds [n] more bytes delivers them and stays good. *)
Lemma istream_read_app (n : nat) (a rest : data_chunk) :
  length a = n ->
  istream_read n (mk_istream (a ++ rest) false) = (a, mk_istream rest false).
Proof.
  intros <-. unfold istream_read. simpl.
  replace (Nat.leb (length a) (length (a ++ rest))) with true.
  - rewrite firstn_app, Nat.sub_diag, firstn_all, skipn_app, Nat.sub_diag,
      skipn_all. simpl. rewrite app_nil_r. reflexivity.
  - symmetry. apply Nat.leb_le. rewrite length_app. lia.
Qed.

(** The fail bit is sticky. *)
Lemma istream_read_failed (n : nat) (s : istream) :
  failbit s = true -> failbit (snd (istream_read n s)) = true.
Proof. intros Hf. unfold istream_read. rewrite Hf. exact Hf. Qed.

Lemma istream_read_short (n : nat) (s : istream) :
  (length (pending s) < n)%nat -> failbit (snd (istream_read n s)) = true.
Proof.
  intros Hlen. unfold istream_read.
  destruct (failbit s) eqn:Hf; [exact Hf|].
  destruct (Nat.leb_spec n (length (pending s))); [lia | reflexivity].
Qed.

Lemma exhaustedb_spec (n : nat) (s : istream) :
  exhaustedb n s = true <-> exhausted n s.
Proof.
  unfold exhaustedb, exhausted.
  rewrite orb_true_iff, Nat.ltb_lt. reflexivity.
Qed.

Lemma read_4_bytes_little_endian_istream (s : istream) :
  read_4_bytes_little_endian s
  = (from_little_endian (fst (istream_read 4 s)), snd (istream_read 4 s)).
Proof.
  cbn. unfold istream_reader_read_4_bytes_little_endian.
  destruct (istream_read 4 s). reflexivity.
Qed.

(** After the two reads of [from_data], the stream is good exactly when it
    was good before and held 36 bytes. *)
Lemma istream_after_reads (s : istream) :
  to_bool (snd (read_hash (snd (read_4_bytes_little_endian s))))
  = negb (exhaustedb (4 + hash_size) s).
Proof.
  rewrite read_4_bytes_little_endian_istream.
  change (negb (failbit (snd (istream_read hash_size (snd (istream_read 4 s)))))
          = negb (exhaustedb (4 + hash_size) s)).
  f_equal. unfold exhaustedb.
  destruct s as [p [|]]; [reflexivity|].
  unfold istream_read at 2. cbn [failbit pending orb].
  destruct (Nat.leb_spec 4 (length p)) as [H4|H4]; cbn [snd].
  - unfold istream_read. cbn [failbit pending].
    rewrite length_skipn.
    destruct (Nat.leb_spec hash_size (length p - 4)) as [H32|H32];
      cbn [snd failbit]; symmetry.
    + apply Nat.ltb_ge. lia.
    + apply Nat.ltb_lt. lia.
  - cbn [istream_read failbit snd]. symmetry. apply Nat.ltb_lt. lia.
Qed.

(** ** reset and the default item *)

Lemma fill_null_hash (h : hash_digest) :
  hash_wf h -> fill x00 h = null_hash.
Proof.
  unfold hash_wf, null_hash, fill. intros <-.
  induction h as [|b h IH]; simpl; [|rewrite IH]; reflexivity.
Qed.

Lemma fill_wf (v : byte) (h : hash_digest) : hash_wf h -> hash_wf (fill v h).
Proof. unfold hash_wf, fill. rewrite length_map. auto. Qed.

Lemma null_hash_wf : hash_wf null_hash.
Proof. apply repeat_length. Qed.

(** [null_hash] is the one 32-byte hash whose bytes are all zero. *)
Lemma null_hash_all_zero (h : hash_digest) :
  hash_wf h -> (h = null_hash <-> forall b, In b h -> b = x00).
Proof.
  intros Hwf. split.
  - intros -> b Hin. apply repeat_spec in Hin. exact Hin.
  - intros Hall. unfold null_hash. rewrite <- Hwf.
    apply Forall_eq_repeat, Forall_forall.
    intros b Hin. symmetry. apply Hall. exact Hin.
Qed.

Lemma reset_default (self : t) : wf self -> reset self = construct_default.
Proof.
  intros Hwf. unfold reset, construct_default, construct. simpl.
  rewrite fill_null_hash by exact Hwf. reflexivity.
Qed.

Lemma reset_wf (self : t) : wf self -> wf (reset self).
Proof. intros Hwf. rewrite reset_default by exact Hwf. apply null_hash_wf. Qed.

Lemma construct_default_invalid : is_valid construct_default = false.
Proof. reflexivity. Qed.

(** ** from_data over an arbitrary reader *)

Section Reader.

Context {R : Type} `{Hsized : reader_sized R}.
Variables (version : N) (source : R) (self : t).

(** The tag and the hash that the two reads of [from_data] deliver, and
    the source after them. *)
Let raw_type : N := fst (read_4_bytes_little_endian source).
Let after_tag : R := snd (read_4_bytes_little_endian source).
Let read_digest : hash_digest := fst (read_hash after_tag).
Let after_hash : R := snd (read_hash after_tag).

Lemma from_data_success :
  to_bool after_hash = true ->
  from_data version source self
  = (true, Build (to_type raw_type) read_digest, after_hash).
Proof.
  subst raw_type read_digest after_hash after_tag.
  unfold from_data.
  destruct (read_4_bytes_little_endian source) as [raw src1]. cbn [fst snd].
  destruct (read_hash src1) as [h src2]. cbn [fst snd].
  intros ->. reflexivity.
Qed.

Lemma from_data_failure :
  to_bool after_hash = false ->
  from_data version source self = (false, construct_default, after_hash).
Proof.
  subst raw_type read_digest after_hash after_tag.
  unfold from_data.
  pose proof (read_hash_wf (snd (read_4_bytes_little_endian source))) as Hwf.
  destruct (read_4_bytes_little_endian source) as [raw src1].
  cbn [fst snd] in *.
  destruct (read_hash src1) as [h src2]. cbn [fst snd] in *.
  intros ->. cbn [negb].
  rewrite reset_default; [reflexivity | exact Hwf].
Qed.

(** The flag that [from_data] returns is the state of the source after
    the two reads, whatever the tag was. *)
Lemma from_data_result :
  fst (fst (from_data version source self)) = to_bool after_hash.
Proof.
  destruct (to_bool after_hash) eqn:E.
  - rewrite from_data_success by exact E. reflexivity.
  - rewrite from_data_failure by exact E. reflexivity.
Qed.

(** [from_data] keeps the class invariant whatever the object was. *)
Lemma from_data_wf : wf (snd (fst (from_data version source self))).
Proof.
  destruct (to_bool after_hash) eqn:E.
  - rewrite from_data_success by exact E. apply read_hash_wf.
  - rewrite from_data_failure by exact E. apply null_hash_wf.
Qed.

End Reader.

(** ** from_data over a stream and over a byte buffer *)

Lemma from_data_stream_ok (version : N) (tag h rest : data_chunk) (self : t) :
  length tag = 4%nat -> hash_wf h ->
  from_data_stream version (mk_istream (tag ++ h ++ rest) false) self
  = (true, Build (to_type (from_little_endian tag)) h, mk_istream rest false).
Proof.
  intros Htag Hh. unfold from_data_stream.
  assert (E4 : read_4_bytes_little_endian (mk_istream (tag ++ h ++ rest) false)
               = (from_little_endian tag, mk_istream (h ++ rest) false)).
  { rewrite read_4_bytes_little_endian_istream.
    rewrite istream_read_app by exact Htag. reflexivity. }
  assert (E32 : read_hash (mk_istream (h ++ rest) false)
                = (h, mk_istream rest false)).
  { apply istream_read_app. exact Hh. }
  rewrite from_data_success; rewrite E4; cbn [fst snd]; rewrite E32;
    reflexivity.
Qed.

Lemma from_data_stream_exhausted (version : N) (s : istream) (self : t) :
  exhausted wire_size s ->
  fst (from_data_stream version s self) = (false, construct_default).
Proof.
  intros Hex. unfold from_data_stream.
  rewrite from_data_failure; [reflexivity|].
  rewrite istream_after_reads.
  apply negb_false_iff, exhaustedb_spec. exact Hex.
Qed.

(** Decoding a stream succeeds exactly when the stream is good and holds
    36 bytes: nothing else, the tag included, decides the result. *)
Lemma from_data_stream_result (version : N) (s : istream) (self : t) :
  fst (fst (from_data_stream version s self)) = negb (exhaustedb wire_size s).
Proof.
  unfold from_data_stream. rewrite from_data_result.
  apply istream_after_reads.
Qed.

Lemma from_data_chunk_ok (version : N) (tag h rest : data_chunk) (self : t) :
  length tag = 4%nat -> hash_wf h ->
  from_data_chunk version (tag ++ h ++ rest) self
  = (true, Build (to_type (from_little_endian tag)) h).
Proof.
  intros Htag Hh. unfold from_data_chunk, data_source.
  rewrite from_data_stream_ok by assumption. reflexivity.
Qed.

Lemma from_data_chunk_short (version : N) (data : data_chunk) (self : t) :
  (length data < wire_size)%nat ->
  from_data_chunk version data self = (false, construct_default).
Proof.
  intros Hlen. unfold from_data_chunk.
  apply from_data_stream_exhausted. right. exact Hlen.
Qed.

(** ** to_data *)

Lemma to_data_chunk_bytes (version : N) (self : t) :
  to_data_chunk version self
  = to_little_endian 4 (to_number (type_ self)) ++ hash_ self.
Proof. reflexivity. Qed.

Lemma to_number_uint32 (k : type_id) : to_number k < uint32_max.
Proof. destruct k; reflexivity. Qed.

(** The condition of the [BITCOIN_ASSERT] in [to_data] holds. *)
Lemma to_data_chunk_assertion (version : N) (self : t) :
  wf self ->
  N.of_nat (length (to_data_chunk version self))
  = serialized_size version self.
Proof.
  intros Hwf. rewrite to_data_chunk_bytes.
  rewrite length_app, to_little_endian_length.
  unfold wf, hash_wf in Hwf. rewrite Hwf. reflexivity.
Qed.

(** The example of the wire format: a transaction whose hash is 32 bytes
    of 0x11. *)
Example to_data_chunk_transaction :
  to_data_chunk 70001 (Build transaction (repeat x11 32))
  = [x01; x00; x00; x00] ++ repeat x11 32
  /\ from_data_chunk 70001 ([x01; x00; x00; x00] ++ repeat x11 32)
       construct_default
     = (true, Build transaction (repeat x11 32)).
Proof. split; reflexivity. Qed.

(** ** The wire-code tables *)

Lemma to_type_other (value : N) :
  value <> 0 -> value <> 1 -> value <> 2 -> value <> 4 ->
  to_type value = none.
Proof.
  intros H0 H1 H2 H4.
  destruct value as [|[[p|p|]|[[p|p|]|[p|p|]|]|]]; try reflexivity;
    congruence.
Qed.

(** Closes the rows of the decoding table once the tag is known. *)
Ltac to_type_table Hdec Hres :=
  repeat split;
  try exact Hdec; try exact Hres;
  try discriminate; try reflexivity; try assumption;
  intros; try lia; try congruence.

Lemma to_type_to_number (k : type_id) :
  In k [error; transaction; block; compact_block] ->
  to_type (to_number k) = k.
Proof.
  simpl. intros [<-|[<-|[<-|[<-|[]]]]]; reflexivity.
Qed.

(** The default item is also what a successful decode of 36 zero bytes
    gives: an invalid item does not by itself tell that decoding failed. *)
Lemma from_data_chunk_zero_bytes (version : N) (self : t) :
  from_data_chunk version (repeat x00 36) self = (true, construct_default).
Proof. reflexivity. Qed.

(** * The properties of the specification *)

(** C1 (round trip).  For every item whose kind is [error], [transaction],
    [block] or [compact_block] and whose hash has 32 bytes, decoding the
    encoding of the item succeeds and gives back the item, in the sense of
    [operator==] and of Leibniz equality; the versions passed to the two
    directions and the previous content of the target do not matter. *)
Theorem C1_decode_encode_roundtrip
    (version version' : N) (item self : t) :
  has_wire_code (type_ item) -> wf item ->
  from_data_chunk version' (to_data_chunk version item) self = (true, item)
  /\ eqb (snd (from_data_chunk version' (to_data_chunk version item) self))
         item = true
  /\ factory_from_data version' (to_data_chunk version item) = item.
Proof.
  intros Hcode Hwf.
  assert (E : forall target,
             from_data_chunk version' (to_data_chunk version item) target
             = (true, item)).
  { intros target. rewrite to_data_chunk_bytes.
    rewrite <- (app_nil_r (hash_ item)).
    rewrite from_data_chunk_ok;
      [| apply to_little_endian_length | exact Hwf].
    rewrite uint32_little_endian by apply to_number_uint32.
    rewrite to_type_to_number by exact Hcode.
    destruct item. reflexivity. }
  split; [apply E|]. split.
  - rewrite E. apply eqb_eq. reflexivity.
  - unfold factory_from_data. rewrite E. reflexivity.
Qed.

Lemma C1_decode_encode_roundtrip_witness :
  has_wire_code (type_ (Build compact_block (repeat x11 32)))
  /\ wf (Build compact_block (repeat x11 32))
  /\ from_data_chunk 70001
       (to_data_chunk 31402 (Build compact_block (repeat x11 32)))
       (Build block [xff])
     = (true, Build compact_block (repeat x11 32)).
Proof.
  assert (Hcode : has_wire_code (type_ (Build compact_block (repeat x11 32))))
    by (unfold has_wire_code; simpl; auto).
  assert (Hwf : wf (Build compact_block (repeat x11 32))) by reflexivity.
  split; [exact Hcode|]. split; [exact Hwf|].
  exact (proj1 (C1_decode_encode_roundtrip 31402 70001
                  (Build compact_block (repeat x11 32)) (Build block [xff])
                  Hcode Hwf)).
Defined.

(** C2 (decoding is total over the tags).  For every [uint32_t] tag value,
    [to_type] gives [error] exactly for 0, [transaction] exactly for 1,
    [block] exactly for 2, [compact_block] exactly for 4 and [none]
    exactly for every other value, and never [filtered_block]; a buffer
    that starts with the four little-endian bytes of the tag followed by 32
    hash bytes decodes with success to the mapped kind and those hash
    bytes, whatever the tag is. *)
Theorem C2_decode_total_over_tags
    (version raw : N) (h rest : data_chunk) (self : t) :
  raw < uint32_max -> hash_wf h ->
  (to_type raw = error <-> raw = 0)
  /\ (to_type raw = transaction <-> raw = 1)
  /\ (to_type raw = block <-> raw = 2)
  /\ (to_type raw = compact_block <-> raw = 4)
  /\ (to_type raw = none <-> raw <> 0 /\ raw <> 1 /\ raw <> 2 /\ raw <> 4)
  /\ to_type raw <> filtered_block
  /\ from_data_chunk version (to_little_endian 4 raw ++ h ++ rest) self
     = (true, Build (to_type raw) h)
  /\ (forall s : istream,
        fst (fst (from_data_stream version s self))
        = negb (failbit s) && Nat.leb 36 (length (pending s))).
Proof.
  intros Hraw Hh.
  assert (Hdec : from_data_chunk version (to_little_endian 4 raw ++ h ++ rest)
                   self = (true, Build (to_type raw) h)
                 /\ (forall s : istream,
                       fst (fst (from_data_stream version s self))
                       = negb (failbit s) && Nat.leb 36 (length (pending s)))).
  { split.
    - rewrite from_data_chunk_ok;
        [| apply to_little_endian_length | exact Hh].
      rewrite uint32_little_endian by exact Hraw. reflexivity.
    - intros s. rewrite from_data_stream_result.
      unfold exhaustedb. rewrite negb_orb, Nat.ltb_antisym, negb_involutive.
      reflexivity. }
  destruct Hdec as [Hdec Hres].
  destruct (N.eq_dec raw 0) as [->|H0]; [to_type_table Hdec Hres|].
  destruct (N.eq_dec raw 1) as [->|H1]; [to_type_table Hdec Hres|].
  destruct (N.eq_dec raw 2) as [->|H2]; [to_type_table Hdec Hres|].
  destruct (N.eq_dec raw 4) as [->|H4]; [to_type_table Hdec Hres|].
  rewrite (to_type_other raw) in * by assumption.
  to_type_table Hdec Hres.
Qed.

Lemma C2_decode_total_over_tags_witness :
  4294967295 < uint32_max
  /\ hash_wf (repeat x11 32)
  /\ to_type 4294967295 = none
  /\ from_data_chunk 70001
       (to_little_endian 4 4294967295 ++ repeat x11 32 ++ [x07])
       construct_default
     = (true, Build none (repeat x11 32)).
Proof.
  assert (Hraw : 4294967295 < uint32_max) by reflexivity.
  assert (Hh : hash_wf (repeat x11 32)) by reflexivity.
  split; [exact Hraw|]. split; [exact Hh|].
  pose proof (C2_decode_total_over_tags 70001 4294967295 (repeat x11 32)
                [x07] construct_default Hraw Hh) as H.
  destruct H as (_ & _ & _ & _ & _ & _ & Hdec & _).
  split; [reflexivity | exact Hdec].
Defined.

(** C3 (truncation).  Decoding a byte buffer shorter than 36 bytes, or a
    stream that has failed already or holds fewer than 36 bytes, returns
    [false] and leaves the target equal to the default item
    [(error, null_hash)], whatever the target held before; and for every
    stream the outcome is one of two: [true] with both fields taken from
    the input, or [false] with the default item.  The same holds for any
    reader that reports failure after the two reads. *)
Theorem C3_truncated_decode_resets
    (version : N) (data : data_chunk) (stream : istream) (self : t) :
  (length data < 36)%nat -> exhausted 36 stream ->
  from_data_chunk version data self = (false, Build error (repeat x00 32))
  /\ fst (from_data_stream version stream self)
     = (false, Build error (repeat x00 32))
  /\ (forall s : istream,
        (exists tag h rest,
            length tag = 4%nat /\ length h = 32%nat
            /\ pending s = tag ++ h ++ rest
            /\ fst (from_data_stream version s self)
               = (true, Build (to_type (from_little_endian tag)) h))
        \/ fst (from_data_stream version s self)
           = (false, Build error (repeat x00 32)))
  /\ (forall (R : Type) (HR : reader R) (HS : reader_sized R) (source : R),
        to_bool (snd (read_hash (snd (read_4_bytes_little_endian source))))
        = false ->
        fst (from_data version source self)
        = (false, Build error (repeat x00 32))).
Proof.
  intros Hdata Hstream.
  split; [apply from_data_chunk_short; exact Hdata|].
  split; [apply from_data_stream_exhausted; exact Hstream|].
  split; [|intros R HR HS source Hfail;
           rewrite from_data_failure by exact Hfail; reflexivity].
  intros s.
  destruct (exhaustedb wire_size s) eqn:E.
  - right. apply from_data_stream_exhausted, exhaustedb_spec. exact E.
  - left. destruct s as [p f].
    unfold exhaustedb in E. apply orb_false_iff in E.
    cbn [failbit pending] in E. destruct E as [-> Hlen].
    apply Nat.ltb_ge in Hlen.
    exists (firstn 4 p), (firstn 32 (skipn 4 p)), (skipn 32 (skipn 4 p)).
    assert (H4 : length (firstn 4 p) = 4%nat)
      by (apply firstn_length_le; unfold wire_size, hash_size in Hlen; lia).
    assert (H32 : length (firstn 32 (skipn 4 p)) = 32%nat).
    { apply firstn_length_le. rewrite length_skipn.
      unfold wire_size, hash_size in Hlen. lia. }
    assert (Hp : p = firstn 4 p ++ firstn 32 (skipn 4 p)
                       ++ skipn 32 (skipn 4 p))
      by (rewrite !firstn_skipn; reflexivity).
    repeat split; try assumption.
    rewrite Hp at 1.
    rewrite from_data_stream_ok by assumption. reflexivity.
Qed.

Lemma C3_truncated_decode_resets_witness :
  (length (to_little_endian 4 1 ++ repeat x11 31) < 36)%nat
  /\ exhausted 36 (mk_istream (to_little_endian 4 2 ++ repeat x11 40) true)
  /\ from_data_chunk 70001 (to_little_endian 4 1 ++ repeat x11 31)
       (Build transaction (repeat x22 32))
     = (false, Build error (repeat x00 32))
  /\ fst (from_data_stream 70001
            (mk_istream (to_little_endian 4 2 ++ repeat x11 40) true)
            (Build transaction (repeat x22 32)))
     = (false, Build error (repeat x00 32)).
Proof.
  assert (Hd : (length (to_little_endian 4 1 ++ repeat x11 31) < 36)%nat)
    by (simpl; lia).
  assert (Hs : exhausted 36
                 (mk_istream (to_little_endian 4 2 ++ repeat x11 40) true))
    by (left; reflexivity).
  split; [exact Hd|]. split; [exact Hs|].
  pose proof (C3_truncated_decode_resets 70001 _ _
                (Build transaction (repeat x22 32)) Hd Hs) as (H1 & H2 & _).
  split; [exact H1 | exact H2].
Defined.

(** C4 (encoding table).  [to_number] sends [transaction] to 1, [block] to
    2, [compact_block] to 4 and each of the other kinds ([error],
    [filtered_block], [none]) to 0; it is defined on every kind and takes
    no other value. *)
Theorem C4_to_number_table :
  to_number transaction = 1
  /\ to_number block = 2
  /\ to_number compact_block = 4
  /\ to_number error = 0
  /\ to_number filtered_block = 0
  /\ to_number none = 0
  /\ forall k : type_id,
       (to_number k = 0 <-> k <> transaction /\ k <> block /\ k <> compact_block)
       /\ In (to_number k) [0; 1; 2; 4].
Proof.
  repeat (split; [reflexivity|]).
  intros k. split.
  - destruct k; simpl; split;
      solve [ intros E; repeat split; congruence
            | intros (H1 & H2 & H3); congruence ].
  - destruct k; simpl; auto.
Qed.

(** C5 (fixed size).  For every kind and every 32-byte hash the encoding
    is the four little-endian bytes of the wire code followed by the hash
    bytes as they are, 36 bytes in all, which is the asserted
    [serialized_size]; [satoshi_fixed_size] and [serialized_size] are 36
    for every version and every item. *)
Theorem C5_encoding_is_36_bytes (version : N) (item : t) :
  wf item ->
  to_data_chunk version item
  = to_little_endian 4 (to_number (type_ item)) ++ hash_ item
  /\ length (to_data_chunk version item) = 36%nat
  /\ N.of_nat (length (to_data_chunk version item))
     = serialized_size version item
  /\ from_little_endian (firstn 4 (to_data_chunk version item))
     = to_number (type_ item)
  /\ skipn 4 (to_data_chunk version item) = hash_ item
  /\ (forall (v : N) (other : t),
        satoshi_fixed_size v = 36 /\ serialized_size v other = 36).
Proof.
  intros Hwf. rewrite to_data_chunk_bytes.
  assert (Hlen : length (to_little_endian 4 (to_number (type_ item))
                         ++ hash_ item) = 36%nat).
  { rewrite length_app, to_little_endian_length.
    unfold wf, hash_wf in Hwf. rewrite Hwf. reflexivity. }
  split; [reflexivity|]. split; [exact Hlen|].
  split; [rewrite Hlen; reflexivity|].
  split; [|split; [|split; reflexivity]].
  - rewrite firstn_app, to_little_endian_length. simpl firstn at 2.
    rewrite app_nil_r.
    rewrite firstn_all2 by (rewrite to_little_endian_length; lia).
    apply uint32_little_endian, to_number_uint32.
  - rewrite skipn_app, to_little_endian_length. simpl skipn at 2.
    rewrite skipn_all2 by (rewrite to_little_endian_length; lia).
    reflexivity.
Qed.

Lemma C5_encoding_is_36_bytes_witness :
  wf (Build transaction (repeat x11 32))
  /\ to_data_chunk 70001 (Build transaction (repeat x11 32))
     = [x01; x00; x00; x00] ++ repeat x11 32
  /\ length (to_data_chunk 70001 (Build transaction (repeat x11 32)))
     = 36%nat.
Proof.
  assert (Hwf : wf (Build transaction (repeat x11 32))) by reflexivity.
  split; [exact Hwf|].
  pose proof (C5_encoding_is_36_bytes 70001 _ Hwf) as (H1 & H2 & _).
  split; [exact H1 | exact H2].
Defined.

(** C6 (validity).  [is_valid] is true if and only if the kind is not
    [error] or the hash is not the all-zero hash; so the default item is
    not valid, [error] with any other hash is valid, and [transaction]
    with the all-zero hash is valid. *)
Theorem C6_is_valid_iff (item : t) :
  (is_valid item = true <-> type_ item <> error \/ hash_ item <> null_hash)
  /\ (is_valid item = false <-> item = Build error (repeat x00 32))
  /\ is_valid (Build error null_hash) = false
  /\ (hash_ item <> null_hash -> is_valid (Build error (hash_ item)) = true)
  /\ is_valid (Build transaction null_hash) = true.
Proof.
  assert (Hiff : forall i, is_valid i = true
                           <-> type_ i <> error \/ hash_ i <> null_hash).
  { intros i. unfold is_valid.
    rewrite orb_true_iff, !negb_true_iff, type_id_eqb_neq, hash_eqb_neq.
    reflexivity. }
  split; [apply Hiff|]. split; [|split; [reflexivity|split; [|reflexivity]]].
  - destruct item as [k h]. unfold is_valid. cbn [type_ hash_].
    rewrite orb_false_iff, !negb_false_iff, type_id_eqb_eq, hash_eqb_eq.
    split.
    + intros [-> ->]. reflexivity.
    + intros E. injection E. auto.
  - intros Hh. apply Hiff. right. exact Hh.
Qed.

Lemma C6_is_valid_iff_witness :
  hash_ (Build error (x01 :: repeat x00 31)) <> null_hash
  /\ is_valid (Build error (x01 :: repeat x00 31)) = true.
Proof.
  assert (Hh : hash_ (Build error (x01 :: repeat x00 31)) <> null_hash)
    by discriminate.
  split; [exact Hh|].
  pose proof (C6_is_valid_iff (Build error (x01 :: repeat x00 31)))
    as (_ & _ & _ & H & _).
  exact (H Hh).
Defined.

(** C7 (the version is not used).  Every entry point gives the same
    result, the same item and the same source or sink for any two
    versions: the three [from_data], the three [factory_from_data], the
    three [to_data], [serialized_size] and [satoshi_fixed_size]. *)
Theorem C7_version_independent
    (v1 v2 : N) (item self : t) (data : data_chunk)
    (stream : istream) (sink : ostream) :
  from_data_chunk v1 data self = from_data_chunk v2 data self
  /\ from_data_stream v1 stream self = from_data_stream v2 stream self
  /\ (forall (R : Type) (HR : reader R) (source : R),
        from_data v1 source self = from_data v2 source self
        /\ factory_from_data_reader v1 source
           = factory_from_data_reader v2 source)
  /\ factory_from_data v1 data = factory_from_data v2 data
  /\ factory_from_data_stream v1 stream = factory_from_data_stream v2 stream
  /\ to_data_chunk v1 item = to_data_chunk v2 item
  /\ to_data_stream v1 sink item = to_data_stream v2 sink item
  /\ (forall (W : Type) (HW : writer W) (w : W),
        to_data v1 w item = to_data v2 w item)
  /\ serialized_size v1 item = serialized_size v2 item
  /\ satoshi_fixed_size v1 = satoshi_fixed_size v2.
Proof.
  repeat split; reflexivity.
Qed.

(** C8 (unknown tags are not kept).  For every [uint32_t] value [raw]
    other than 0, 1, 2 and 4 and every 32-byte hash, decoding the 36-byte
    buffer with tag [raw] succeeds with kind [none], and encoding the
    decoded item gives the tag bytes of 0 followed by the same hash: the
    tag read back is 0 and differs from [raw]. *)
Theorem C8_unknown_tag_not_preserved
    (version version' raw : N) (h : hash_digest) (self : t) :
  raw < uint32_max ->
  raw <> 0 -> raw <> 1 -> raw <> 2 -> raw <> 4 ->
  hash_wf h ->
  let decoded := from_data_chunk version (to_little_endian 4 raw ++ h) self in
  let encoded := to_data_chunk version' (snd decoded) in
  decoded = (true, Build none h)
  /\ encoded = to_little_endian 4 0 ++ h
  /\ from_little_endian (firstn 4 encoded) = 0
  /\ from_little_endian (firstn 4 encoded) <> raw
  /\ encoded <> to_little_endian 4 raw ++ h.
Proof.
  intros Hraw H0 H1 H2 H4 Hh decoded encoded.
  assert (Hdec : decoded = (true, Build none h)).
  { subst decoded. rewrite <- (app_nil_r h) at 1.
    rewrite from_data_chunk_ok;
      [| apply to_little_endian_length | exact Hh].
    rewrite uint32_little_endian by exact Hraw.
    rewrite to_type_other by assumption. reflexivity. }
  assert (Henc : encoded = to_little_endian 4 0 ++ h)
    by (subst encoded; rewrite Hdec; reflexivity).
  assert (Htag : from_little_endian (firstn 4 encoded) = 0)
    by (rewrite Henc; reflexivity).
  repeat split; try assumption.
  - rewrite Htag. auto.
  - rewrite Henc. intros E. apply app_inv_tail in E.
    apply (f_equal from_little_endian) in E.
    rewrite (uint32_little_endian raw) in E by exact Hraw.
    apply H0. symmetry. exact E.
Qed.

Lemma C8_unknown_tag_not_preserved_witness :
  3 < uint32_max /\ hash_wf (repeat x11 32)
  /\ from_data_chunk 70001 (to_little_endian 4 3 ++ repeat x11 32)
       construct_default
     = (true, Build none (repeat x11 32))
  /\ to_data_chunk 70001 (Build none (repeat x11 32))
     = [x00; x00; x00; x00] ++ repeat x11 32.
Proof.
  assert (Hraw : 3 < uint32_max) by reflexivity.
  assert (Hh : hash_wf (repeat x11 32)) by reflexivity.
  split; [exact Hraw|]. split; [exact Hh|].
  pose proof (C8_unknown_tag_not_preserved 70001 70001 3 (repeat x11 32)
                construct_default Hraw
                ltac:(discriminate) ltac:(discriminate)
                ltac:(discriminate) ltac:(discriminate) Hh)
    as (Hdec & Henc & _).
  split; [exact Hdec|].
  rewrite Hdec in Henc. exact Henc.
Defined.

(** C9 (classification).  [is_block_type] is true exactly for the kinds
    [block], [compact_block] and [filtered_block] and false exactly for
    [error], [transaction] and [none]; [is_transaction_type] is true
    exactly for [transaction]. *)
Theorem C9_classification (item : t) :
  (is_block_type item = true
   <-> In (type_ item) [block; compact_block; filtered_block])
  /\ (is_block_type item = false
      <-> In (type_ item) [error; transaction; none])
  /\ (is_transaction_type item = true <-> type_ item = transaction).
Proof.
  destruct item as [k h]. unfold is_block_type, is_transaction_type.
  cbn [type_].
  split; [|split].
  - destruct k; simpl; split; intros H; try reflexivity; try discriminate;
      intuition congruence.
  - destruct k; simpl; split; intros H; try reflexivity; try discriminate;
      intuition congruence.
  - apply type_id_eqb_eq.
Qed.

(** C10 (factory on short input).  For every version, the
    factory applied to a byte buffer shorter than 36 bytes, to a stream
    that has failed or holds fewer than 36 bytes, or to any reader that
    reports failure after the two reads, returns the default-constructed
    item [(error, null_hash)], for which [is_valid] is false.  A valid item
    out of the factory shows that decoding succeeded; the converse does not
    hold, since 36 zero bytes decode with success to the very item that a
    failed decode returns. *)
Theorem C10_factory_from_truncated_data
    (version : N) (data : data_chunk) (stream : istream) :
  (length data < 36)%nat -> exhausted 36 stream ->
  factory_from_data version data = construct_default
  /\ is_valid (factory_from_data version data) = false
  /\ fst (factory_from_data_stream version stream) = construct_default
  /\ is_valid (fst (factory_from_data_stream version stream)) = false
  /\ (forall (R : Type) (HR : reader R) (HS : reader_sized R) (source : R),
        to_bool (snd (read_hash (snd (read_4_bytes_little_endian source))))
        = false ->
        fst (factory_from_data_reader version source) = construct_default
        /\ is_valid (fst (factory_from_data_reader version source)) = false)
  /\ construct_default = Build error (repeat x00 32)
  /\ (forall d : data_chunk,
        is_valid (factory_from_data version d) = true ->
        fst (from_data_chunk version d construct_default) = true)
  /\ fst (from_data_chunk version (repeat x00 36) construct_default) = true
  /\ factory_from_data version (repeat x00 36)
     = factory_from_data version data.
Proof.
  intros Hdata Hstream.
  assert (E1 : factory_from_data version data = construct_default).
  { unfold factory_from_data.
    rewrite from_data_chunk_short by exact Hdata. reflexivity. }
  assert (E2 : fst (factory_from_data_stream version stream)
               = construct_default).
  { unfold factory_from_data_stream.
    pose proof (from_data_stream_exhausted version stream construct_default
                  Hstream) as E.
    destruct (from_data_stream version stream construct_default)
      as [[ok iv] s']. cbn [fst] in *. congruence. }
  assert (E3 : forall (R : Type) (HR : reader R) (HS : reader_sized R)
                      (source : R),
             to_bool (snd (read_hash (snd (read_4_bytes_little_endian
                                             source)))) = false ->
             fst (factory_from_data_reader version source)
             = construct_default).
  { intros R HR HS source Hfail. unfold factory_from_data_reader.
    rewrite from_data_failure by exact Hfail. reflexivity. }
  split; [exact E1|]. split; [rewrite E1; reflexivity|].
  split; [exact E2|]. split; [rewrite E2; reflexivity|].
  split.
  { intros R HR HS source Hfail.
    rewrite (E3 R HR HS source Hfail). split; reflexivity. }
  split; [reflexivity|]. split; [|split].
  - intros d Hvalid.
    destruct (Nat.lt_ge_cases (length d) 36) as [Hlt|Hge].
    + unfold factory_from_data in Hvalid.
      rewrite from_data_chunk_short in Hvalid by exact Hlt. discriminate.
    + assert (Hsplit : exists tag h rest,
                 d = tag ++ h ++ rest /\ length tag = 4%nat /\ hash_wf h).
      { exists (firstn 4 d), (firstn 32 (skipn 4 d)), (skipn 32 (skipn 4 d)).
        split; [rewrite !firstn_skipn; reflexivity|].
        split; [apply firstn_length_le; lia|].
        unfold hash_wf, hash_size.
        apply firstn_length_le. rewrite length_skipn. lia. }
      destruct Hsplit as (tag & h & rest & -> & Ht & Hh).
      rewrite from_data_chunk_ok by assumption. reflexivity.
  - reflexivity.
  - rewrite E1. reflexivity.
Qed.

Lemma C10_factory_from_truncated_data_witness :
  (length (to_little_endian 4 1 ++ repeat x11 31) < 36)%nat
  /\ exhausted 36 (mk_istream (repeat x11 35) false)
  /\ factory_from_data 70001 (to_little_endian 4 1 ++ repeat x11 31)
     = Build error (repeat x00 32)
  /\ fst (factory_from_data_stream 70001 (mk_istream (repeat x11 35) false))
     = Build error (repeat x00 32).
Proof.
  assert (Hd : (length (to_little_endian 4 1 ++ repeat x11 31) < 36)%nat)
    by (simpl; lia).
  assert (Hs : exhausted 36 (mk_istream (repeat x11 35) false))
    by (right; simpl; lia).
  split; [exact Hd|]. split; [exact Hs|].
  pose proof (C10_factory_from_truncated_data 70001 _ _ Hd Hs)
    as (H1 & _ & H2 & _).
  split; [exact H1 | exact H2].
Defined.

(** C10 (detecting the failure from the value).  A failed decode cannot
    be told from the returned item alone: a buffer of 35 zero bytes fails
    to decode and a buffer of 36 zero bytes decodes with success, and the
    factory returns the same item for both; so no test on the returned
    item gives the outcome of the decode. *)
Lemma C10_failure_not_detectable_counterexample :
  fst (from_data_chunk 70001 (repeat x00 35) construct_default) = false
  /\ fst (from_data_chunk 70001 (repeat x00 36) construct_default) = true
  /\ factory_from_data 70001 (repeat x00 35)
     = factory_from_data 70001 (repeat x00 36)
  /\ is_valid (factory_from_data 70001 (repeat x00 36)) = false
  /\ ~ (exists detect : t -> bool,
          forall data : data_chunk,
            detect (factory_from_data 70001 data)
            = fst (from_data_chunk 70001 data construct_default)).
Proof.
  repeat (split; [reflexivity|]).
  intros [detect Hdetect].
  pose proof (Hdetect (repeat x00 35)) as H35.
  pose proof (Hdetect (repeat x00 36)) as H36.
  change (factory_from_data 70001 (repeat x00 35)) with construct_default
    in H35.
  change (factory_from_data 70001 (repeat x00 36)) with construct_default
    in H36.
  change (fst (from_data_chunk 70001 (repeat x00 35) construct_default))
    with false in H35.
  change (fst (from_data_chunk 70001 (repeat x00 36) construct_default))
    with true in H36.
  congruence.
Qed.

(** * Further properties of the code *)

(** X1 (equality operators).  [operator==] is true exactly when the two
    items have the same kind and the same hash bytes, which is when they
    are the same value; [operator!=] is true exactly when they differ in
    the kind or in the hash. *)
Theorem X1_equality_operators (a b : t) :
  (eqb a b = true <-> type_ a = type_ b /\ hash_ a = hash_ b)
  /\ (eqb a b = true <-> a = b)
  /\ (neqb a b = true <-> type_ a <> type_ b \/ hash_ a <> hash_ b)
  /\ eqb a b = eqb b a
  /\ eqb a a = true.
Proof.
  assert (Hfields : eqb a b = true <-> type_ a = type_ b /\ hash_ a = hash_ b).
  { unfold eqb. rewrite andb_true_iff, hash_eqb_eq, type_id_eqb_eq. tauto. }
  split; [exact Hfields|]. split; [apply eqb_eq|]. split; [|split].
  - unfold neqb, eqb.
    rewrite negb_true_iff, andb_false_iff, hash_eqb_neq, type_id_eqb_neq.
    tauto.
  - unfold eqb. f_equal.
    + destruct (hash_eqb (hash_ a) (hash_ b)) eqn:E; symmetry.
      * apply hash_eqb_eq. symmetry. apply hash_eqb_eq. exact E.
      * apply hash_eqb_neq. apply hash_eqb_neq in E. congruence.
    + destruct (type_ a), (type_ b); reflexivity.
  - apply eqb_eq. reflexivity.
Qed.

(** X2 (setters and equality).  Replacing the kind of an item by a
    different kind, or its hash by a different hash, gives an item that
    [operator!=] tells apart from the original; replacing a field by the
    value it has gives an equal item; and each setter leaves the other
    field as it was. *)
Theorem X2_setters_change_equality
    (self : t) (k : type_id) (h : hash_digest) :
  neqb (set_type k self) self = negb (type_id_eqb k (type_ self))
  /\ neqb (set_hash h self) self = negb (hash_eqb h (hash_ self))
  /\ neqb (set_hash_move h self) self = negb (hash_eqb h (hash_ self))
  /\ hash (set_type k self) = hash self
  /\ type (set_hash h self) = type self
  /\ set_hash h (set_type k self) = set_type k (set_hash h self).
Proof.
  assert (Ht : forall x, type_id_eqb x x = true)
    by (intros x; apply type_id_eqb_eq; reflexivity).
  assert (Hh : forall x, hash_eqb x x = true)
    by (intros x; apply hash_eqb_eq; reflexivity).
  unfold neqb, eqb, set_type, set_hash, set_hash_move, hash, type.
  cbn [type_ hash_].
  rewrite Ht, Hh, andb_true_r. cbn [andb].
  repeat split; reflexivity.
Qed.

(** X3 (reset).  Resetting an item whose hash has 32 bytes gives the
    default item [(error, null_hash)], which is not valid, is neither a
    block nor a transaction kind, and is left as it is by a second
    reset. *)
Theorem X3_reset_gives_default (self : t) :
  wf self ->
  reset self = construct_default
  /\ is_valid (reset self) = false
  /\ is_block_type (reset self) = false
  /\ is_transaction_type (reset self) = false
  /\ reset (reset self) = reset self
  /\ eqb (reset self) (Build error (repeat x00 32)) = true.
Proof.
  intros Hwf.
  assert (E : reset self = construct_default) by (apply reset_default, Hwf).
  rewrite E. repeat split; reflexivity.
Qed.

Lemma X3_reset_gives_default_witness :
  wf (Build block (repeat xff 32))
  /\ reset (Build block (repeat xff 32)) = construct_default
  /\ is_valid (reset (Build block (repeat xff 32))) = false.
Proof.
  assert (Hwf : wf (Build block (repeat xff 32))) by reflexivity.
  split; [exact Hwf|].
  pose proof (X3_reset_gives_default _ Hwf) as (H1 & H2 & _).
  split; [exact H1 | exact H2].
Defined.

(** ** Helpers for the properties below *)

Lemma to_number_to_type (value : N) :
  to_number (to_type value) = value <-> In value [0; 1; 2; 4].
Proof.
  simpl. split.
  - destruct (N.eq_dec value 0) as [->|H0]; [auto|].
    destruct (N.eq_dec value 1) as [->|H1]; [auto|].
    destruct (N.eq_dec value 2) as [->|H2]; [auto|].
    destruct (N.eq_dec value 4) as [->|H4]; [auto 6|].
    rewrite to_type_other by assumption. simpl. congruence.
  - intros [<-|[<-|[<-|[<-|[]]]]]; reflexivity.
Qed.

Lemma to_type_not_filtered_block (value : N) :
  to_type value <> filtered_block.
Proof.
  destruct value as [|[[p|p|]|[[p|p|]|[p|p|]|]|]]; discriminate.
Qed.

Lemma to_little_endian_uint32_inj (v w : N) :
  v < uint32_max -> w < uint32_max ->
  to_little_endian 4 v = to_little_endian 4 w -> v = w.
Proof.
  intros Hv Hw E. apply (f_equal from_little_endian) in E.
  rewrite !uint32_little_endian in E by assumption. exact E.
Qed.

(** A buffer of at least 36 bytes is a tag, a hash and the rest. *)
Lemma data_chunk_split (data : data_chunk) :
  (wire_size <= length data)%nat ->
  exists tag h rest,
    data = tag ++ h ++ rest /\ length tag = 4%nat /\ hash_wf h
    /\ tag = firstn 4 data /\ h = firstn 32 (skipn 4 data).
Proof.
  unfold wire_size, hash_size. intros Hlen.
  exists (firstn 4 data), (firstn 32 (skipn 4 data)),
    (skipn 32 (skipn 4 data)).
  split; [rewrite !firstn_skipn; reflexivity|].
  split; [apply firstn_length_le; lia|].
  split; [|split; reflexivity].
  unfold hash_wf, hash_size.
  apply firstn_length_le. rewrite length_skipn. lia.
Qed.

(** X4 (a valid result means success).  When the item left by [from_data]
    is valid, [from_data] returned [true]; so a valid item out of the
    factory shows that the buffer held at least 36 bytes. *)
Theorem X4_valid_result_implies_success
    (R : Type) (HR : reader R) (HS : reader_sized R)
    (version : N) (source : R) (data : data_chunk) (self : t) :
  is_valid (snd (fst (from_data version source self))) = true ->
  is_valid (factory_from_data version data) = true ->
  fst (fst (from_data version source self)) = true
  /\ fst (from_data_chunk version data self) = true
  /\ (36 <= length data)%nat.
Proof.
  intros Hsrc Hdata.
  split.
  - rewrite from_data_result.
    destruct (to_bool (snd (read_hash (snd (read_4_bytes_little_endian
                                               source))))) eqn:E;
      [reflexivity|].
    rewrite from_data_failure in Hsrc by exact E.
    cbn [fst snd] in Hsrc. discriminate.
  - destruct (Nat.lt_ge_cases (length data) 36) as [Hlt|Hge].
    + unfold factory_from_data in Hdata.
      rewrite from_data_chunk_short in Hdata by exact Hlt.
      discriminate.
    + split; [|exact Hge].
      destruct (data_chunk_split data Hge) as (tag & h & rest & -> & Ht & Hh & _).
      rewrite from_data_chunk_ok by assumption. reflexivity.
Qed.

Lemma X4_valid_result_implies_success_witness :
  is_valid (snd (fst (from_data 70001 (data_source (repeat x01 36))
                        construct_default))) = true
  /\ is_valid (factory_from_data 70001 (repeat x01 40)) = true
  /\ fst (fst (from_data 70001 (data_source (repeat x01 36))
                 construct_default)) = true
  /\ (36 <= length (repeat x01 40))%nat.
Proof.
  assert (H1 : is_valid (snd (fst (from_data 70001
                 (data_source (repeat x01 36)) construct_default))) = true)
    by reflexivity.
  assert (H2 : is_valid (factory_from_data 70001 (repeat x01 40)) = true)
    by reflexivity.
  split; [exact H1|]. split; [exact H2|].
  pose proof (X4_valid_result_implies_success istream istream_reader
                istream_reader_sized 70001 (data_source (repeat x01 36))
                (repeat x01 40) construct_default H1 H2) as (Ha & _ & Hb).
  split; [exact Ha | exact Hb].
Defined.

(** X5 (items in sequence).  Two items with coded kinds written one after
    the other to a stream are read back one after the other: the first
    [from_data] returns the first item and leaves the stream at the first
    byte of the second, the second [from_data] returns the second item and
    leaves the bytes that follow untouched. *)
Theorem X5_stream_sequence
    (version : N) (a b self self' : t) (rest : data_chunk) :
  has_wire_code (type_ a) -> has_wire_code (type_ b) -> wf a -> wf b ->
  let wire := to_data_stream version
                (to_data_stream version (data_sink []) a) b in
  wire = to_data_chunk version a ++ to_data_chunk version b
  /\ from_data_stream version (data_source (wire ++ rest)) self
     = (true, a, mk_istream (to_data_chunk version b ++ rest) false)
  /\ from_data_stream version
       (mk_istream (to_data_chunk version b ++ rest) false) self'
     = (true, b, mk_istream rest false).
Proof.
  intros Ha Hb Hwa Hwb wire.
  assert (Hwire : wire = to_data_chunk version a ++ to_data_chunk version b).
  { subst wire. rewrite !to_data_chunk_bytes.
    unfold to_data_stream, to_data, data_sink. cbn.
    rewrite <- !app_assoc. reflexivity. }
  assert (Hone : forall (x target : t) (tail : data_chunk),
             has_wire_code (type_ x) -> wf x ->
             from_data_stream version
               (mk_istream (to_data_chunk version x ++ tail) false) target
             = (true, x, mk_istream tail false)).
  { intros x target tail Hx Hwx. rewrite to_data_chunk_bytes.
    rewrite <- app_assoc.
    rewrite from_data_stream_ok;
      [| apply to_little_endian_length | exact Hwx].
    rewrite uint32_little_endian by apply to_number_uint32.
    rewrite to_type_to_number by exact Hx.
    destruct x. reflexivity. }
  split; [exact Hwire|]. split.
  - unfold data_source. rewrite Hwire, <- app_assoc.
    apply Hone; assumption.
  - apply Hone; assumption.
Qed.

Lemma X5_stream_sequence_witness :
  has_wire_code (type_ (Build transaction (repeat x11 32)))
  /\ has_wire_code (type_ (Build block (repeat x22 32)))
  /\ wf (Build transaction (repeat x11 32))
  /\ wf (Build block (repeat x22 32))
  /\ from_data_stream 70001
       (mk_istream (to_data_chunk 70001 (Build block (repeat x22 32))
                    ++ [x07]) false) construct_default
     = (true, Build block (repeat x22 32), mk_istream [x07] false).
Proof.
  assert (Ha : has_wire_code (type_ (Build transaction (repeat x11 32))))
    by (unfold has_wire_code; simpl; auto).
  assert (Hb : has_wire_code (type_ (Build block (repeat x22 32))))
    by (unfold has_wire_code; simpl; auto).
  assert (Hwa : wf (Build transaction (repeat x11 32))) by reflexivity.
  assert (Hwb : wf (Build block (repeat x22 32))) by reflexivity.
  split; [exact Ha|]. split; [exact Hb|].
  split; [exact Hwa|]. split; [exact Hwb|].
  pose proof (X5_stream_sequence 70001 _ _ construct_default
                construct_default [x07] Ha Hb Hwa Hwb) as (_ & _ & H).
  exact H.
Defined.

(** X6 (writing appends).  [to_data] on a stream leaves what the stream
    already holds in place and appends the encoding of the item after it:
    36 more bytes for an item with a 32-byte hash, the number that
    [serialized_size] announces. *)
Theorem X6_to_data_stream_appends
    (version : N) (sink : ostream) (item : t) :
  wf item ->
  to_data_stream version sink item = sink ++ to_data_chunk version item
  /\ N.of_nat (length (to_data_stream version sink item))
     = N.of_nat (length sink) + serialized_size version item
  /\ firstn (length sink) (to_data_stream version sink item) = sink
  /\ skipn (length sink) (to_data_stream version sink item)
     = to_data_chunk version item.
Proof.
  intros Hwf.
  assert (E : to_data_stream version sink item
              = sink ++ to_data_chunk version item).
  { rewrite to_data_chunk_bytes. unfold to_data_stream, to_data. cbn.
    rewrite <- app_assoc. reflexivity. }
  rewrite E. split; [reflexivity|]. split; [|split].
  - rewrite length_app, Nat2N.inj_add.
    rewrite to_data_chunk_assertion by exact Hwf. reflexivity.
  - rewrite firstn_app, Nat.sub_diag, firstn_all. simpl.
    apply app_nil_r.
  - rewrite skipn_app, Nat.sub_diag, skipn_all. reflexivity.
Qed.

Lemma X6_to_data_stream_appends_witness :
  wf (Build block (repeat x22 32))
  /\ to_data_stream 70001 [xaa; xbb] (Build block (repeat x22 32))
     = [xaa; xbb] ++ [x02; x00; x00; x00] ++ repeat x22 32.
Proof.
  assert (Hwf : wf (Build block (repeat x22 32))) by reflexivity.
  split; [exact Hwf|].
  pose proof (X6_to_data_stream_appends 70001 [xaa; xbb] _ Hwf) as (H & _).
  exact H.
Defined.

(** X7 (which items share an encoding).  Two items with 32-byte hashes
    have the same encoding exactly when their kinds have the same wire
    code and their hashes are equal; so the kinds [error],
    [filtered_block] and [none] with one hash are written as the same 36
    bytes, and two items with coded kinds and the same encoding are the
    same item. *)
Theorem X7_encoding_equality
    (version version' : N) (a b : t) :
  wf a -> wf b ->
  (to_data_chunk version a = to_data_chunk version' b
   <-> to_number (type_ a) = to_number (type_ b) /\ hash_ a = hash_ b)
  /\ to_data_chunk version (Build filtered_block (hash_ a))
     = to_data_chunk version (Build error (hash_ a))
  /\ to_data_chunk version (Build none (hash_ a))
     = to_data_chunk version (Build error (hash_ a))
  /\ (has_wire_code (type_ a) -> has_wire_code (type_ b) ->
      to_data_chunk version a = to_data_chunk version' b -> a = b).
Proof.
  intros Hwa Hwb.
  assert (Hiff : to_data_chunk version a = to_data_chunk version' b
                 <-> to_number (type_ a) = to_number (type_ b)
                     /\ hash_ a = hash_ b).
  { rewrite !to_data_chunk_bytes. split.
    - intros E.
      assert (Ehash : hash_ a = hash_ b).
      { apply (f_equal (skipn 4)) in E. cbn in E. exact E. }
      split; [|exact Ehash].
      rewrite Ehash in E. apply app_inv_tail in E.
      apply to_little_endian_uint32_inj in E;
        [exact E | apply to_number_uint32 | apply to_number_uint32].
    - intros [-> ->]. reflexivity. }
  split; [exact Hiff|]. split; [reflexivity|]. split; [reflexivity|].
  intros Ha Hb E. apply Hiff in E. destruct E as [En Eh].
  apply (f_equal to_type) in En.
  rewrite !to_type_to_number in En by assumption.
  destruct a, b. cbn in *. congruence.
Qed.

Lemma X7_encoding_equality_witness :
  wf (Build none (repeat x33 32)) /\ wf (Build error (repeat x33 32))
  /\ to_data_chunk 70001 (Build none (repeat x33 32))
     = to_data_chunk 31402 (Build error (repeat x33 32)).
Proof.
  assert (Ha : wf (Build none (repeat x33 32))) by reflexivity.
  assert (Hb : wf (Build error (repeat x33 32))) by reflexivity.
  split; [exact Ha|]. split; [exact Hb|].
  pose proof (X7_encoding_equality 70001 31402 _ _ Ha Hb) as (H & _).
  apply H. split; reflexivity.
Defined.

(** X8 (decode, then encode).  For a buffer of exactly 36 bytes, encoding
    the decoded item gives the buffer back exactly when its tag is 0, 1, 2
    or 4; the 32 hash bytes come back in every case. *)
Theorem X8_encode_decode_roundtrip
    (version version' : N) (data : data_chunk) (self : t) :
  length data = 36%nat ->
  let decoded := snd (from_data_chunk version data self) in
  (to_data_chunk version' decoded = data
   <-> In (from_little_endian (firstn 4 data)) [0; 1; 2; 4])
  /\ skipn 4 (to_data_chunk version' decoded) = skipn 4 data.
Proof.
  intros Hlen decoded.
  destruct (data_chunk_split data) as (tag & h & rest & E & Ht & Hh & _);
    [unfold wire_size, hash_size; lia|].
  assert (Hrest : rest = []).
  { apply length_zero_iff_nil. rewrite E, !length_app, Ht in Hlen.
    unfold hash_wf, hash_size in Hh. lia. }
  subst rest. rewrite app_nil_r in E.
  assert (Hd : decoded = Build (to_type (from_little_endian tag)) h).
  { subst decoded.
    pose proof (from_data_chunk_ok version tag h [] self Ht Hh) as Hok.
    rewrite app_nil_r in Hok. rewrite E, Hok. reflexivity. }
  assert (Htag : firstn 4 data = tag).
  { rewrite E, firstn_app, Ht. simpl firstn at 2. rewrite app_nil_r.
    apply firstn_all2. lia. }
  assert (Hle : to_little_endian 4 (from_little_endian tag) = tag)
    by (rewrite <- Ht; apply to_from_little_endian).
  assert (Hb : from_little_endian tag < uint32_max).
  { pose proof (from_little_endian_bound tag) as B. rewrite Ht in B.
    exact B. }
  rewrite Hd, Htag, to_data_chunk_bytes. cbn [type_ hash_].
  rewrite <- to_number_to_type. split.
  - rewrite E. split.
    + intros Eq. apply app_inv_tail in Eq. rewrite <- Hle in Eq at 2.
      apply to_little_endian_uint32_inj in Eq;
        [exact Eq | apply to_number_uint32 | exact Hb].
    + intros ->. rewrite Hle. reflexivity.
  - rewrite E.
    rewrite !skipn_app, to_little_endian_length, Ht. simpl skipn at 2 4.
    rewrite !skipn_all2 by (rewrite ?to_little_endian_length; lia).
    reflexivity.
Qed.

Lemma X8_encode_decode_roundtrip_witness :
  length ([x04; x00; x00; x00] ++ repeat x11 32) = 36%nat
  /\ to_data_chunk 70001
       (snd (from_data_chunk 70001 ([x04; x00; x00; x00] ++ repeat x11 32)
               construct_default))
     = [x04; x00; x00; x00] ++ repeat x11 32.
Proof.
  assert (Hlen : length ([x04; x00; x00; x00] ++ repeat x11 32) = 36%nat)
    by reflexivity.
  split; [exact Hlen|].
  pose proof (X8_encode_decode_roundtrip 70001 70001 _ construct_default
                Hlen) as (H & _).
  apply H. simpl. auto 6.
Defined.

(** X9 (only the first 36 bytes count).  Decoding a byte buffer gives the
    same result and the same item as decoding its first 36 bytes: what
    follows them is never looked at. *)
Theorem X9_decode_reads_36_bytes
    (version : N) (data : data_chunk) (self : t) :
  from_data_chunk version data self
  = from_data_chunk version (firstn 36 data) self.
Proof.
  destruct (Nat.lt_ge_cases (length data) 36) as [Hlt|Hge].
  - rewrite firstn_all2 by lia. reflexivity.
  - destruct (data_chunk_split data Hge)
      as (tag & h & rest & -> & Ht & Hh & _).
    assert (E : firstn 36 (tag ++ h ++ rest) = tag ++ h ++ []).
    { unfold hash_wf, hash_size in Hh.
      rewrite app_assoc, firstn_app, length_app, Ht, Hh. simpl firstn at 2.
      rewrite firstn_all2 by (rewrite length_app; lia).
      rewrite <- app_assoc. reflexivity. }
    rewrite E, !from_data_chunk_ok by assumption. reflexivity.
Qed.

(** X10 (the target is overwritten).  What [from_data] returns and leaves
    in the object does not depend on what the object held before, for any
    reader; so the factory, which decodes into a default item, returns the
    item that [from_data] leaves in any object. *)
Theorem X10_from_data_overwrites_target
    (R : Type) (HR : reader R) (version : N) (source : R) (self self' : t) :
  from_data version source self = from_data version source self'
  /\ factory_from_data_reader version source
     = (snd (fst (from_data version source self)),
        snd (from_data version source self)).
Proof.
  unfold factory_from_data_reader, from_data.
  destruct (read_4_bytes_little_endian source) as [raw s1].
  destruct (read_hash s1) as [h s2].
  destruct (to_bool s2); split; reflexivity.
Qed.

(** X11 (copies and assignments).  A copy-constructed or move-constructed
    item, and the target of either assignment operator whatever it held
    before, compare equal to the source under [operator==] and are the
    same value. *)
Theorem X11_copy_and_assign (other self : t) :
  eqb (construct_copy other) other = true
  /\ eqb (construct_moved other) other = true
  /\ eqb (assign other self) other = true
  /\ eqb (assign_move other self) other = true
  /\ neqb (assign other self) other = false
  /\ assign other self = other
  /\ is_valid (assign other self) = is_valid other.
Proof.
  assert (Hc : construct_copy other = other) by (destruct other; reflexivity).
  assert (Hm : construct_moved other = other)
    by (destruct other; reflexivity).
  assert (Ha : assign other self = other) by (destruct other; reflexivity).
  assert (Hv : assign_move other self = other)
    by (destruct other; reflexivity).
  assert (Hrefl : eqb other other = true) by (apply eqb_eq; reflexivity).
  unfold neqb. rewrite Hc, Hm, Ha, Hv, Hrefl.
  repeat split; reflexivity.
Qed.

(** X12 (classification and validity).  No item is both of a block kind
    and of the transaction kind; an item of either kind is valid whatever
    its hash; an item that is not valid is of neither kind. *)
Theorem X12_classified_items_are_valid (item : t) :
  is_block_type item && is_transaction_type item = false
  /\ (is_block_type item || is_transaction_type item = true ->
      is_valid item = true)
  /\ (is_valid item = false ->
      is_block_type item = false /\ is_transaction_type item = false).
Proof.
  destruct item as [k h].
  unfold is_block_type, is_transaction_type, is_valid. cbn [type_ hash_].
  destruct k; cbn; repeat split; try reflexivity; try discriminate;
    intros H; try discriminate; auto.
Qed.

Lemma X12_classified_items_are_valid_witness :
  is_block_type (Build filtered_block null_hash)
  || is_transaction_type (Build filtered_block null_hash) = true
  /\ is_valid (Build filtered_block null_hash) = true.
Proof.
  assert (H : is_block_type (Build filtered_block null_hash)
              || is_transaction_type (Build filtered_block null_hash) = true)
    by reflexivity.
  split; [exact H|].
  pose proof (X12_classified_items_are_valid
                (Build filtered_block null_hash)) as (_ & Hv & _).
  exact (Hv H).
Defined.

(** X13 (the two tables together).  Mapping a kind to its wire code and
    back gives the kind exactly for [error], [transaction], [block] and
    [compact_block]; mapping a value to a kind and back gives the value
    exactly for 0, 1, 2 and 4.  Encoding after decoding after encoding is
    encoding; decoding after encoding after decoding is decoding, except
    that [none] becomes [error]; and the code of a decoded kind never
    exceeds the value it was decoded from. *)
Theorem X13_tables_compose (k : type_id) (value : N) :
  (to_type (to_number k) = k <-> has_wire_code k)
  /\ (to_number (to_type value) = value <-> In value [0; 1; 2; 4])
  /\ to_number (to_type (to_number k)) = to_number k
  /\ to_type (to_number (to_type value))
     = (if type_id_eqb (to_type value) none then error else to_type value)
  /\ to_number (to_type value) <= value.
Proof.
  split; [|split; [apply to_number_to_type|split; [|split]]].
  - unfold has_wire_code. split.
    + destruct k; simpl; intros E; try discriminate; auto.
    + apply to_type_to_number.
  - destruct k; reflexivity.
  - pose proof (to_type_not_filtered_block value) as Hnf.
    destruct (to_type value); try reflexivity. contradiction.
  - destruct (N.eq_dec value 0) as [->|H0]; [simpl; lia|].
    destruct (N.eq_dec value 1) as [->|H1]; [simpl; lia|].
    destruct (N.eq_dec value 2) as [->|H2]; [simpl; lia|].
    destruct (N.eq_dec value 4) as [->|H4]; [simpl; lia|].
    rewrite to_type_other by assumption. simpl. lia.
Qed.

(** X14 (kinds that decoding never gives).  Whatever the reader delivers,
    the item left by [from_data] is never of kind [filtered_block]; so a
    decoded item of a block kind is a [block] or a [compact_block], and
    when decoding fails the item is of kind [error]. *)
Theorem X14_decoded_kind
    (R : Type) (HR : reader R) (version : N) (source : R) (self : t) :
  let decoded := snd (fst (from_data version source self)) in
  type_ decoded <> filtered_block
  /\ (is_block_type decoded = true ->
      type_ decoded = block \/ type_ decoded = compact_block)
  /\ (fst (fst (from_data version source self)) = false ->
      type_ decoded = error).
Proof.
  intros decoded.
  assert (Hk : type_ decoded
               = if to_bool (snd (read_hash
                                    (snd (read_4_bytes_little_endian source))))
                 then to_type (fst (read_4_bytes_little_endian source))
                 else error).
  { subst decoded. unfold from_data.
    destruct (read_4_bytes_little_endian source) as [raw s1].
    cbn [fst snd].
    destruct (read_hash s1) as [h s2]. cbn [fst snd].
    destruct (to_bool s2); reflexivity. }
  assert (Hnf : type_ decoded <> filtered_block).
  { rewrite Hk.
    destruct (to_bool _); [apply to_type_not_filtered_block | discriminate]. }
  split; [exact Hnf|]. split.
  - intros Hb. unfold is_block_type in Hb.
    destruct (type_ decoded); try discriminate; auto; contradiction.
  - intros Hfail. rewrite Hk.
    assert (Hres : fst (fst (from_data version source self))
                   = to_bool (snd (read_hash
                        (snd (read_4_bytes_little_endian source))))).
    { unfold from_data.
      destruct (read_4_bytes_little_endian source) as [raw s1].
      cbn [fst snd].
      destruct (read_hash s1) as [h s2]. cbn [fst snd].
      destruct (to_bool s2); reflexivity. }
    rewrite <- Hres, Hfail. reflexivity.
Qed.

Lemma X14_decoded_kind_witness :
  is_block_type
    (snd (fst (from_data 70001
                 (data_source ([x04; x00; x00; x00] ++ repeat x11 32))
                 construct_default))) = true
  /\ (type_ (snd (fst (from_data 70001
                 (data_source ([x04; x00; x00; x00] ++ repeat x11 32))
                 construct_default))) = block
      \/ type_ (snd (fst (from_data 70001
                 (data_source ([x04; x00; x00; x00] ++ repeat x11 32))
                 construct_default))) = compact_block).
Proof.
  assert (H : is_block_type
    (snd (fst (from_data 70001
                 (data_source ([x04; x00; x00; x00] ++ repeat x11 32))
                 construct_default))) = true) by reflexivity.
  split; [exact H|].
  pose proof (X14_decoded_kind istream istream_reader 70001
                (data_source ([x04; x00; x00; x00] ++ repeat x11 32))
                construct_default) as (_ & Hb & _).
  exact (Hb H).
Defined.
